(** * websauna: CRUD traversal, URL mapping and the admin root

    A shallow embedding of [websauna/system/crud/__init__.py] and
    [websauna/system/admin/admin.py].

    Python values are a small inductive type, exceptions are the error side
    of [result], and a method that calls a collaborator (the path mapper,
    [fetch_object], the URL host) runs in a monad that carries the ordered
    log of those calls, so that "is evaluated first" and "is never called"
    are statements about the log. Assertions are taken as enabled. *)

From Stdlib Require Import ZArith List Lia Ascii DecimalString DecimalZ DecimalPos.
From Stdlib.Strings Require Import Byte.
From stdpp Require Import gmap strings.

(** ** Python values, exceptions and truth *)

Module py.

(** The exception classes that the modelled code raises or lets through. *)
Inductive exn : Type :=
| KeyError
| AssertionError
| NotImplementedError
| AttributeError
| ValueError
| TypeError
| MappingError.

#[local] Set Warnings "-register-all".

(** The Python values that travel through the CRUD and admin code: path
    segments, identifiers, and model instances with their attributes. *)
Inductive value : Type :=
| VNone
| VBool (b : bool)
| VInt (z : Z)
| VStr (s : string)
| VUUID (bytes : list byte)
| VList (items : list value)
| VInstance (cls : string) (attrs : list (string * value)).

(** [bool(v)]: [None], [False], zero, the empty string and the empty list
    are false; a UUID and an instance of a class that defines neither
    [__bool__] nor [__len__] are true. *)
Definition truthy (v : value) : bool :=
  match v with
  | VNone => false
  | VBool b => b
  | VInt z => negb (z =? 0)%Z
  | VStr s => negb (String.eqb s EmptyString)
  | VUUID _ => true
  | VList items => match items with [] => false | _ :: _ => true end
  | VInstance _ _ => true
  end.

(** [getattr(o, name)] on a model instance; any other value has no such
    attribute. *)
Fixpoint assoc (name : string) (attrs : list (string * value)) : option value :=
  match attrs with
  | [] => None
  | (k, v) :: rest => if String.eqb k name then Some v else assoc name rest
  end.

Definition getattr (o : value) (name : string) : option value :=
  match o with
  | VInstance _ attrs => assoc name attrs
  | _ => None
  end.

(** *** Calls to collaborators, logged in order

    [M E A] is a computation that returns an [A] or raises, and appends to
    a log of events [E]. An exception ends the computation; the log keeps
    what happened before it. *)

Section Monad.

Context {E : Type}.

Definition M (A : Type) : Type := list E -> result A exn * list E.

Definition ret {A} (a : A) : M A := fun log => (Ok a, log).

Definition raise {A} (e : exn) : M A := fun log => (Error e, log).

Definition bind {A B} (m : M A) (k : A -> M B) : M B :=
  fun log =>
    match m log with
    | (Ok a, log') => k a log'
    | (Error e, log') => (Error e, log')
    end.

(** A call to a collaborator: the event is logged, then the
    collaborator's answer (a value or an exception) is the outcome. *)
Definition call {A} (ev : E) (answer : result A exn) : M A :=
  fun log => (answer, log ++ [ev]).

(** Kleisli composition, left to right. *)
Definition kleisli {A B C} (f : A -> M B) (g : B -> M C) : A -> M C :=
  fun a => bind (f a) g.

Definition run {A} (m : M A) : result A exn * list E := m [].

(** A computation that only appends to the log: started from any log,
    it gives the outcome it gives from the empty log and adds the same
    events. *)
Definition appends {A} (m : M A) : Prop :=
  forall log, m log = (fst (run m), log ++ snd (run m)).

End Monad.

Arguments M : clear implicits.

End py.

Import py.

Declare Scope py_scope.
Delimit Scope py_scope with py.
Notation "x <- c1 ;; c2" := (bind c1 (fun x => c2))
  (at level 100, c1 at next level, right associativity) : py_scope.
Notation "f >=> g" := (kleisli f g)
  (at level 60, right associativity) : py_scope.
Open Scope py_scope.

(** ** websauna.system.crud *)

Module crud.

(** The path mapper interface that [CRUD] calls. Each method answers with a
    value or raises. The concrete mappers live in
    [websauna.system.crud.urlmapper], see [urlmapper] below. *)
Record Mapper : Type := {
  get_path_from_object : value -> result value exn;
  get_id_from_path : string -> result value exn;
  is_id : string -> result bool exn
}.

(** The class that a [CRUD] subclass names in its [Resource] attribute. *)
Variant ResourceClass : Type :=
| ResourceSubclass (qualname : string).

(** A [CRUD] instance as the methods below see it: the class attribute
    [mapper], the optional attribute [Resource] ([None] when [hasattr(self,
    "Resource")] is false), and the method [fetch_object] that the instance
    dispatches to. *)
Record CRUD : Type := {
  title : string;
  singular_name : string;
  plural_name : string;
  mapper : Mapper;
  Resource_attr : option ResourceClass;
  fetch_object : value -> result value exn
}.

(** [crud.Resource]: the wrapped object, and the lineage attributes, which
    do not exist ([None]) until [make_lineage] sets them. *)
Record Resource : Type := {
  resource_class : ResourceClass;
  obj : value;
  __parent__ : option CRUD;
  __name__ : option string
}.

(** What the CRUD code asks of its collaborators. *)
Inductive event : Type :=
| Call_is_id (path : string)
| Call_get_id_from_path (path : string)
| Call_get_path_from_object (o : value)
| Call_fetch_object (id : value)
| Call_resource_url (res : Resource) (elements : list value).

Abbreviation M := (py.M event).

(** [Resource.__init__(self, obj)], reached through [cls(obj)]. *)
Definition Resource_init (cls : ResourceClass) (o : value) : Resource :=
  {| resource_class := cls; obj := o; __parent__ := None; __name__ := None |}.

(** [Resource.get_object]. *)
Definition get_object (self : Resource) : value := obj self.

(** [Resource.get_path]: the assertion on [hasattr(self, "__parent__")],
    then the mapper of the parent CRUD applied to the wrapped object. *)
Definition get_path (self : Resource) : M value :=
  match __parent__ self with
  | None => raise AssertionError
  | Some crud =>
      path <- call (Call_get_path_from_object (obj self))
                   (get_path_from_object (mapper crud) (obj self)) ;;
      ret path
  end.

(** [Resource.get_title]. *)
Definition get_title (self : Resource) : M value := get_path self.

(** Modelled from the spec: [make_lineage] of the base class
    [websauna.system.core.traversal.Resource], which is not in this
    module. It sets the lineage of [child]: [parent] becomes its
    [__parent__] and [name] its [__name__]. *)
Definition make_lineage (parent : CRUD) (child : Resource) (name : string) : Resource :=
  {| resource_class := resource_class child;
     obj := obj child;
     __parent__ := Some parent;
     __name__ := Some name |}.

(** [CRUD.make_resource]. *)
Definition make_resource (self : CRUD) (o : value) : M Resource :=
  match Resource_attr self with
  | Some cls => ret (Resource_init cls o)
  | None => raise NotImplementedError
  end.

(** [CRUD.wrap_to_resource]. The assertion [type(path) == str] holds for a
    [VStr] only. *)
Definition wrap_to_resource (self : CRUD) (o : value) : M Resource :=
  instance <- make_resource self o ;;
  path <- call (Call_get_path_from_object o)
               (get_path_from_object (mapper self) o) ;;
  match path with
  | VStr s => ret (make_lineage self instance s)
  | _ => raise AssertionError
  end.

(** [CRUD.traverse_to_object]. *)
Definition traverse_to_object (self : CRUD) (path : string) : M Resource :=
  id <- call (Call_get_id_from_path path)
             (get_id_from_path (mapper self) path) ;;
  o <- call (Call_fetch_object id) (fetch_object self id) ;;
  wrap_to_resource self o.

(** [CRUD.fetch_object] as the abstract class defines it; a storage-backed
    subclass overrides it. *)
Definition abstract_fetch_object (id : value) : result value exn :=
  Error NotImplementedError.

(** [CRUD.get_object_url]. [resource_url] is the URL host's
    [request.resource_url(res, *elements)], which answers with a URL. *)
Definition get_object_url
    (resource_url : Resource -> list value -> result string exn)
    (self : CRUD) (o : value) (view_name : value) : M string :=
  res <- wrap_to_resource self o ;;
  if truthy view_name
  then call (Call_resource_url res [view_name]) (resource_url res [view_name])
  else call (Call_resource_url res []) (resource_url res []).

(** [CRUD.__getitem__]. *)
Definition __getitem__ (self : CRUD) (path : string) : M Resource :=
  b <- call (Call_is_id path) (is_id (mapper self) path) ;;
  if (b : bool)
  then traverse_to_object self path
  else raise KeyError.

(** Whether an event reaches the storage collaborator. *)
Definition touches_storage (ev : event) : bool :=
  match ev with
  | Call_fetch_object _ => true
  | _ => false
  end.

(** The two collaborator calls of [traverse_to_object], each as a step
    from the previous result, for stating it as a composition. *)
Definition mapper_get_id_from_path (self : CRUD) (path : string) : M value :=
  call (Call_get_id_from_path path) (get_id_from_path (mapper self) path).

Definition storage_fetch_object (self : CRUD) (id : value) : M value :=
  call (Call_fetch_object id) (fetch_object self id).

(** What the class statement of a [CRUD] subclass binds: the attributes,
    the optional nested class [Resource], and [fetch_object]. *)
Record CRUDClass : Type := {
  cls_title : string;
  cls_singular_name : string;
  cls_plural_name : string;
  cls_mapper : Mapper;
  cls_Resource : option ResourceClass;
  cls_fetch_object : value -> result value exn
}.

(** Instantiating a [CRUD] subclass. The class body of [CRUD] binds
    attributes and methods only: it has no [__init__] of its own and no
    check of what a subclass supplies, so an instance exists for any
    combination of them, with or without a [Resource] attribute. The
    inherited constructor takes the request, which these methods use for
    [resource_url] only. *)
Definition instantiate (cls : CRUDClass) : result CRUD exn :=
  Ok {| title := cls_title cls;
        singular_name := cls_singular_name cls;
        plural_name := cls_plural_name cls;
        mapper := cls_mapper cls;
        Resource_attr := cls_Resource cls;
        fetch_object := cls_fetch_object cls |}.

(** [Resource.get_model]: [self.__parent__.get_model()]. The class [CRUD]
    defines no [get_model]; [get_model_of] stands for the method that the
    parent collection's class supplies. Reading [__parent__] on a resource
    whose lineage is not set raises [AttributeError]: this method has no
    assertion in front of it. *)
Definition get_model (get_model_of : CRUD -> result value exn) (self : Resource)
    : result value exn :=
  match __parent__ self with
  | None => Error AttributeError
  | Some crud => get_model_of crud
  end.

(** The elements that [get_object_url] hands to [resource_url] for a view
    name: the view name alone when it is true, nothing otherwise. *)
Definition url_elements (view_name : value) : list value :=
  if truthy view_name then [view_name] else [].

(** The four collaborator calls of a lookup that goes all the way, in the
    order of the source. *)
Definition lookup_calls (path : string) (id o : value) : list event :=
  [ Call_is_id path; Call_get_id_from_path path;
    Call_fetch_object id; Call_get_path_from_object o ].

End crud.

(** ** websauna.system.crud.urlmapper *)

Module urlmapper.

#[local] Open Scope Z_scope.

(** *** URL-safe base64 without padding

    The codec under [Base64UUIDMapper] below: the 64-character alphabet
    that is safe in a URL path segment, most significant bits first, no
    padding characters. *)

Definition alphabet : list ascii :=
  String.list_ascii_of_string
    "ABCDEFGHIJKLMNOPQRSTUVWXYZabcdefghijklmnopqrstuvwxyz0123456789-_".

(** The character of a 6-bit digit. *)
Definition chr64 (n : Z) : ascii := nth (Z.to_nat n) alphabet "A"%char.

Fixpoint index_of (c : ascii) (l : list ascii) (i : Z) : option Z :=
  match l with
  | [] => None
  | x :: rest => if Ascii.eqb x c then Some i else index_of c rest (i + 1)
  end.

(** The 6-bit digit of a character, if it is in the alphabet. *)
Definition val64 (c : ascii) : option Z := index_of c alphabet 0.

Definition byte_val (b : byte) : Z := Z.of_N (Byte.to_N b).

Definition byte_of (z : Z) : option byte := Byte.of_N (Z.to_N z).

(** The ranges of an 8-bit byte and of a 6-bit digit. *)
Definition is_octet (z : Z) : Prop := 0 <= z < 256.

Definition is_sextet (z : Z) : Prop := 0 <= z < 64.

(** Three bytes make four digits; a last group of one or two bytes makes
    two or three digits, the unused low bits being zero. *)
Fixpoint sextets_of_bytes (bs : list byte) : list Z :=
  match bs with
  | [] => []
  | [a] =>
      let n := byte_val a in
      [n / 4; (n mod 4) * 16]
  | [a; b] =>
      let n := byte_val a * 256 + byte_val b in
      [n / 1024; (n / 16) mod 64; (n mod 16) * 4]
  | a :: b :: c :: rest =>
      let n := byte_val a * 65536 + byte_val b * 256 + byte_val c in
      n / 262144 :: (n / 4096) mod 64 :: (n / 64) mod 64 :: n mod 64
        :: sextets_of_bytes rest
  end.

Definition bytes3 (x y z : option byte) (rest : option (list byte)) : option (list byte) :=
  match x, y, z, rest with
  | Some a, Some b, Some c, Some l => Some (a :: b :: c :: l)
  | _, _, _, _ => None
  end.

Fixpoint bytes_of_sextets (ss : list Z) : option (list byte) :=
  match ss with
  | [] => Some []
  | [_] => None
  | [s0; s1] =>
      let n := s0 * 4 + s1 / 16 in
      match byte_of n with
      | Some a => Some [a]
      | None => None
      end
  | [s0; s1; s2] =>
      let n := s0 * 1024 + s1 * 16 + s2 / 4 in
      match byte_of (n / 256), byte_of (n mod 256) with
      | Some a, Some b => Some [a; b]
      | _, _ => None
      end
  | s0 :: s1 :: s2 :: s3 :: rest =>
      let n := s0 * 262144 + s1 * 4096 + s2 * 64 + s3 in
      bytes3 (byte_of (n / 65536)) (byte_of ((n / 256) mod 256))
             (byte_of (n mod 256)) (bytes_of_sextets rest)
  end.

Fixpoint sextets_of_chars (cs : list ascii) : option (list Z) :=
  match cs with
  | [] => Some []
  | c :: rest =>
      match val64 c, sextets_of_chars rest with
      | Some n, Some ns => Some (n :: ns)
      | _, _ => None
      end
  end.

Definition b64encode (bs : list byte) : string :=
  String.string_of_list_ascii (map chr64 (sextets_of_bytes bs)).

Definition b64decode (s : string) : option (list byte) :=
  match sextets_of_chars (String.list_ascii_of_string s) with
  | Some ss => bytes_of_sextets ss
  | None => None
  end.

(** Modelled from the spec: the encoding of a unique identifier as an
    opaque path segment and its inverse. A UUID is 16 bytes; a slug that
    does not decode to 16 bytes is no UUID. *)
Definition uuid_to_slug (bytes : list byte) : string := b64encode bytes.

Definition slug_to_uuid (slug : string) : option (list byte) :=
  match b64decode slug with
  | Some bytes => if (length bytes =? 16)%nat then Some bytes else None
  | None => None
  end.

(** *** Decimal integers *)

(** Modelled from the spec: the plain sequential-integer encoding, [str(z)]
    one way and [int(s)] the other. *)
Definition str_of_int (z : Z) : string := NilEmpty.string_of_int (Z.to_int z).

(** [int(s)] on decimal literals: an optional minus sign and at least one
    digit; anything else is malformed. *)
Definition int_of_str (s : string) : option Z :=
  match NilEmpty.int_of_string s with
  | Some (Decimal.Pos Decimal.Nil) => None
  | Some (Decimal.Neg Decimal.Nil) => None
  | Some d => Some (Z.of_int d)
  | None => None
  end.

(** *** The two mappers *)

(** Modelled from the spec: [Base64UUIDMapper] of
    [websauna.system.crud.urlmapper], the default [CRUD.mapper], whose
    module is not among the sources. It is the spec's opaque-token
    strategy: the path of an object is the URL-safe base64 encoding of its
    [uuid] attribute (the comment on [CRUD.mapper] names the attribute and
    the encoding), encoding fails with [MappingError] when the object
    lacks that attribute, decoding is the inverse and fails with
    [MappingError] on malformed input, and [is_id] is the syntactic
    check. *)
Definition Base64UUIDMapper : crud.Mapper :=
  {| crud.get_path_from_object := fun o =>
       match getattr o "uuid" with
       | Some (VUUID bytes) => Ok (VStr (uuid_to_slug bytes))
       | _ => Error MappingError
       end;
     crud.get_id_from_path := fun path =>
       match slug_to_uuid path with
       | Some bytes => Ok (VUUID bytes)
       | None => Error MappingError
       end;
     crud.is_id := fun path =>
       Ok (match slug_to_uuid path with Some _ => true | None => false end) |}.

(** Modelled from the spec: [IdMapper] of [websauna.system.crud.urlmapper],
    whose module is not among the sources. It is the spec's decimal-id
    strategy, a plain sequential-integer encoding: the path of an object
    is its [id] attribute (the running-counter primary column that the
    comment on [CRUD.mapper] names) written in decimal, with the same
    failure behaviour as the other mapper. *)
Definition IdMapper : crud.Mapper :=
  {| crud.get_path_from_object := fun o =>
       match getattr o "id" with
       | Some (VInt z) => Ok (VStr (str_of_int z))
       | _ => Error MappingError
       end;
     crud.get_id_from_path := fun path =>
       match int_of_str path with
       | Some z => Ok (VInt z)
       | None => Error MappingError
       end;
     crud.is_id := fun path =>
       Ok (match int_of_str path with Some _ => true | None => false end) |}.

(** The encoding strategies of the spec. *)
Variant strategy : Type := OpaqueToken | DecimalId.

Definition mapper_of (s : strategy) : crud.Mapper :=
  match s with
  | OpaqueToken => Base64UUIDMapper
  | DecimalId => IdMapper
  end.

Definition id_attribute (s : strategy) : string :=
  match s with
  | OpaqueToken => "uuid"
  | DecimalId => "id"
  end.

(** The identifier of a domain object under a strategy. *)
Definition object_id (s : strategy) (o : value) : option value :=
  getattr o (id_attribute s).

(** A valid domain object carries an identifier of the strategy's kind: a
    16-byte UUID, or an integer. *)
Definition valid_object (s : strategy) (o : value) : bool :=
  match s, object_id s o with
  | OpaqueToken, Some (VUUID bytes) => (length bytes =? 16)%nat
  | DecimalId, Some (VInt _) => true
  | _, _ => false
  end.

End urlmapper.

(** ** websauna.system.admin.admin *)

Module admin.

(** One entry of [Admin.__acl__]: [(Allow, principal, permission)]. *)
Variant action : Type := Allow | Deny.

Definition __acl__ : list (action * string * string) :=
  [ (Allow, "group:admin", "add");
    (Allow, "group:admin", "view");
    (Allow, "group:admin", "edit");
    (Allow, "group:admin", "delete");
    (Allow, "superuser:superuser", "shell") ].

(** What the admin root asks of its collaborators. *)
Inductive event : Type :=
| Call_get_admin_resource (o : value)
| Call_resource_url (res : crud.Resource) (elements : list value).

Abbreviation M := (py.M event).

Section Admin.

(** The traversal nodes registered under the admin root: model admins,
    which are CRUD collections, and other admin pages. *)
Context {Child : Type}.

(** An [Admin] instance: its name under the root and the dictionary
    [children] of registered child resources. *)
Record Admin : Type := {
  __name__ : string;
  children : gmap string Child
}.

(** [Admin.get_title]. *)
Definition get_title (self : Admin) : string := "Admin".

(** [Admin.__getitem__]: [self.children[name]], where a missing key
    raises [KeyError]. *)
Definition __getitem__ (self : Admin) (name : string) : result Child exn :=
  match children self !! name with
  | Some child => Ok child
  | None => Error KeyError
  end.

(** The collaborators of [get_admin_object_url]: the method
    [get_admin_resource], which maps a model instance to its admin
    resource, and the URL host's [request.resource_url(res,
    *elements)]. *)
Variable get_admin_resource : Admin -> value -> result crud.Resource exn.
Variable resource_url : crud.Resource -> list value -> result string exn.

(** [Admin.get_admin_object_url]. *)
Definition get_admin_object_url (self : Admin) (o : value) (view_name : value)
    : M value :=
  if negb (truthy o)
  then ret VNone
  else
    res <- call (Call_get_admin_resource o) (get_admin_resource self o) ;;
    if truthy view_name
    then
      url <- call (Call_resource_url res [view_name])
                  (resource_url res [view_name]) ;;
      ret (VStr url)
    else
      url <- call (Call_resource_url res []) (resource_url res []) ;;
      ret (VStr url).


End Admin.

Arguments Admin : clear implicits.

End admin.

(** ** Fixtures: a concrete model, collections and admin root *)

Module fixtures.

Definition uuid42 : list byte :=
  [ xf0; xf1; xf2; xf3; xf4; xf5; xf6; xf7;
    xf8; xf9; xfa; xfb; xfc; xfd; xfe; xff ].

(** A [Widget] row with both kinds of identifier. *)
Definition widget42 : value :=
  VInstance "Widget" [ ("id", VInt 42); ("uuid", VUUID uuid42) ].

(** A storage-backed [fetch_object]: one row, and [KeyError] for any other
    identifier. *)
Definition widget_table (id : value) : result value exn :=
  match id with
  | VInt 42 => Ok widget42
  | _ => Error KeyError
  end.

Definition WidgetResource : crud.ResourceClass :=
  crud.ResourceSubclass "Widgets.Resource".

(** A complete collection over the decimal-id mapper. *)
Definition widgets : crud.CRUD :=
  {| crud.title := "Widget";
     crud.singular_name := "widget";
     crud.plural_name := "widgets";
     crud.mapper := urlmapper.IdMapper;
     crud.Resource_attr := Some WidgetResource;
     crud.fetch_object := widget_table |}.

(** A subclass that supplies no [Resource] attribute. *)
Definition unwrapped_class : crud.CRUDClass :=
  {| crud.cls_title := "Widget";
     crud.cls_singular_name := "widget";
     crud.cls_plural_name := "widgets";
     crud.cls_mapper := urlmapper.IdMapper;
     crud.cls_Resource := None;
     crud.cls_fetch_object := widget_table |}.

(** A subclass that keeps the abstract [fetch_object]. *)
Definition abstract_widgets : crud.CRUD :=
  {| crud.title := "Widget";
     crud.singular_name := "widget";
     crud.plural_name := "widgets";
     crud.mapper := urlmapper.IdMapper;
     crud.Resource_attr := Some WidgetResource;
     crud.fetch_object := crud.abstract_fetch_object |}.

(** A mapper whose encoder hands back the raw [id] column, an integer,
    instead of a path string. *)
Definition raw_id_mapper : crud.Mapper :=
  {| crud.get_path_from_object := fun o =>
       match getattr o "id" with
       | Some v => Ok v
       | None => Error MappingError
       end;
     crud.get_id_from_path := crud.get_id_from_path urlmapper.IdMapper;
     crud.is_id := crud.is_id urlmapper.IdMapper |}.

Definition raw_widgets : crud.CRUD :=
  {| crud.title := "Widget";
     crud.singular_name := "widget";
     crud.plural_name := "widgets";
     crud.mapper := raw_id_mapper;
     crud.Resource_attr := Some WidgetResource;
     crud.fetch_object := widget_table |}.

(** An admin root with one registered model admin. *)
Definition the_admin : admin.Admin crud.CRUD :=
  {| admin.__name__ := "admin";
     admin.children := {[ "widgets" := widgets ]} |}.

(** A [get_admin_resource] that finds an admin resource for every object:
    the object wrapped under [widgets], named ["item"]. *)
Definition any_admin_resource (self : admin.Admin crud.CRUD) (o : value)
    : result crud.Resource exn :=
  Ok (crud.make_lineage widgets (crud.Resource_init WidgetResource o) "item").

(** A URL host: the resource's name under [/admin/widgets/], then the
    string elements. *)
Definition join_elements (elements : list value) : string :=
  fold_right
    (fun v acc => match v with VStr s => "/" +:+ s +:+ acc | _ => acc end)
    "" elements.

Definition admin_resource_url (res : crud.Resource) (elements : list value)
    : result string exn :=
  match crud.__name__ res with
  | Some name => Ok ("/admin/widgets/" +:+ name +:+ join_elements elements)
  | None => Error AssertionError
  end.

(** A [get_admin_resource] that resolves an object to the resource that the
    [widgets] collection wraps it to. *)
Definition widgets_admin_resource (self : admin.Admin crud.CRUD) (o : value)
    : result crud.Resource exn :=
  fst (run (crud.wrap_to_resource widgets o)).

(** A [get_model] for the fixture collections: the model's name. *)
Definition widget_model (self : crud.CRUD) : result value exn :=
  Ok (VStr "Widget").

End fixtures.

(** * Properties *)

(** ** The call log *)

Section MonadFacts.

Context {E : Type}.

Lemma appends_ret {A} (a : A) : appends (E := E) (ret a).
Proof. intros log. unfold run, ret. simpl. by rewrite app_nil_r. Qed.

Lemma appends_raise {A} (e : exn) : appends (E := E) (A := A) (raise e).
Proof. intros log. unfold run, raise. simpl. by rewrite app_nil_r. Qed.

Lemma appends_call {A} (ev : E) (answer : result A exn) :
  appends (call ev answer).
Proof. intros log. reflexivity. Qed.

Lemma appends_bind {A B} (m : M E A) (k : A -> M E B) :
  appends m -> (forall a, appends (k a)) -> appends (bind m k).
Proof.
  intros Hm Hk log. unfold run, bind.
  rewrite (Hm log). unfold run.
  destruct (m []) as [[a | e] l0]; simpl.
  - rewrite (Hk a (log ++ l0)), (Hk a l0). simpl. by rewrite app_assoc.
  - reflexivity.
Qed.

(** The log of a computation that only appends starts with the log it was
    given. *)
Lemma appends_prefix {A} (m : M E A) (log : list E) :
  appends m -> exists rest, snd (m log) = log ++ rest.
Proof. intros Hm. exists (snd (run m)). by rewrite (Hm log). Qed.

End MonadFacts.

Create HintDb appends discriminated.
#[export] Hint Resolve appends_ret appends_raise appends_call : appends.

Ltac appends_step :=
  lazymatch goal with
  | |- appends (bind _ _) => apply appends_bind; [| intros ?]
  | |- appends (match ?x with _ => _ end) => destruct x
  | |- appends (if ?b then _ else _) => destruct b
  | |- _ => solve [eauto with appends]
  end.

Ltac appends_auto := repeat appends_step.

(** ** websauna.system.crud *)

Lemma make_resource_appends (self : crud.CRUD) (o : value) :
  appends (crud.make_resource self o).
Proof. unfold crud.make_resource. appends_auto. Qed.

Lemma wrap_to_resource_appends (self : crud.CRUD) (o : value) :
  appends (crud.wrap_to_resource self o).
Proof.
  unfold crud.wrap_to_resource.
  apply appends_bind; [apply make_resource_appends | intros instance].
  appends_auto.
Qed.

Lemma traverse_to_object_appends (self : crud.CRUD) (path : string) :
  appends (crud.traverse_to_object self path).
Proof.
  unfold crud.traverse_to_object.
  do 2 (apply appends_bind; [apply appends_call | intros ?]).
  apply wrap_to_resource_appends.
Qed.

Lemma getitem_appends (self : crud.CRUD) (path : string) :
  appends (crud.__getitem__ self path).
Proof.
  unfold crud.__getitem__.
  apply appends_bind; [apply appends_call | intros [|]].
  - apply traverse_to_object_appends.
  - apply appends_raise.
Qed.

(** [wrap_to_resource] by cases on the [Resource] attribute and on the
    mapper's answer. *)
Lemma wrap_to_resource_run (self : crud.CRUD) (o : value) (log : list crud.event) :
  crud.wrap_to_resource self o log =
    match crud.Resource_attr self with
    | None => (Error NotImplementedError, log)
    | Some cls =>
        match crud.get_path_from_object (crud.mapper self) o with
        | Ok (VStr s) =>
            (Ok (crud.make_lineage self (crud.Resource_init cls o) s),
             log ++ [crud.Call_get_path_from_object o])
        | Ok _ => (Error AssertionError, log ++ [crud.Call_get_path_from_object o])
        | Error e => (Error e, log ++ [crud.Call_get_path_from_object o])
        end
    end.
Proof.
  unfold crud.wrap_to_resource, crud.make_resource, bind, call, ret, raise.
  destruct (crud.Resource_attr self) as [cls |]; [| reflexivity].
  destruct (crud.get_path_from_object (crud.mapper self) o) as [[] | e];
    reflexivity.
Qed.

(** C1. [CRUD.__getitem__(p)] asks [mapper.is_id(p)] before anything else.
    When the answer is false it raises [KeyError] and the call log holds
    that one call: [fetch_object] is not called and storage is not touched.
    When the answer is true it continues as [traverse_to_object(p)]. An
    exception of [is_id] itself comes out unchanged. *)
Theorem getitem_is_id_gate (self : crud.CRUD) (p : string) :
  (exists rest,
      snd (run (crud.__getitem__ self p)) = crud.Call_is_id p :: rest)
  /\ match crud.is_id (crud.mapper self) p with
     | Ok true =>
         forall log,
           crud.__getitem__ self p log =
           crud.traverse_to_object self p (log ++ [crud.Call_is_id p])
     | Ok false =>
         run (crud.__getitem__ self p) = (Error KeyError, [crud.Call_is_id p])
         /\ existsb crud.touches_storage (snd (run (crud.__getitem__ self p)))
            = false
     | Error e =>
         run (crud.__getitem__ self p) = (Error e, [crud.Call_is_id p])
     end.
Proof.
  unfold run, crud.__getitem__, bind, call, raise; simpl.
  destruct (crud.is_id (crud.mapper self) p) as [[|] | e]; simpl.
  - split; [| reflexivity].
    destruct (appends_prefix (crud.traverse_to_object self p)
                [crud.Call_is_id p] (traverse_to_object_appends self p))
      as [rest Hrest].
    exists rest. exact Hrest.
  - split; [by exists [] | by split].
  - split; [by exists [] | reflexivity].
Qed.

(** C3. On a [Resource] whose lineage was never set, [get_path()] and
    [get_title()] raise [AssertionError]: no value is returned, and the
    mapper is not called. *)
Theorem unset_lineage_fails (r : crud.Resource) :
  crud.__parent__ r = None ->
  forall log,
    crud.get_path r log = (Error AssertionError, log)
    /\ crud.get_title r log = (Error AssertionError, log).
Proof.
  intros Hparent log. unfold crud.get_title, crud.get_path.
  rewrite Hparent. by split.
Qed.

Lemma unset_lineage_fails_witness :
  let r := crud.Resource_init fixtures.WidgetResource fixtures.widget42 in
  crud.__parent__ r = None
  /\ forall log,
       crud.get_path r log = (Error AssertionError, log)
       /\ crud.get_title r log = (Error AssertionError, log).
Proof.
  split; [reflexivity |].
  apply (unset_lineage_fails
           (crud.Resource_init fixtures.WidgetResource fixtures.widget42)).
  reflexivity.
Defined.

(** C4, as the claim states it, fails: a collection that keeps the abstract
    [fetch_object] raises [NotImplementedError] from it, and
    [traverse_to_object] lets that error out instead of [KeyError]. *)
Lemma traverse_to_object_lets_error_escape :
  crud.get_id_from_path (crud.mapper fixtures.abstract_widgets) "42"
    = Ok (VInt 42)
  /\ crud.fetch_object fixtures.abstract_widgets (VInt 42)
    = Error NotImplementedError
  /\ run (crud.traverse_to_object fixtures.abstract_widgets "42")
    = (Error NotImplementedError,
       [crud.Call_get_id_from_path "42"; crud.Call_fetch_object (VInt 42)])
  /\ fst (run (crud.traverse_to_object fixtures.abstract_widgets "42"))
    <> Error KeyError.
Proof. repeat split; try reflexivity. vm_compute. discriminate. Qed.

(** C4, amended. [traverse_to_object(p)] is the composition of
    [mapper.get_id_from_path], [fetch_object] and [wrap_to_resource]. When
    [get_id_from_path] or [fetch_object] raises, [traverse_to_object] stops
    there and raises that same exception, whatever its class; when both
    answer, it continues as [wrap_to_resource] on the fetched object. *)
Theorem traverse_to_object_composition (self : crud.CRUD) (p : string) :
  crud.traverse_to_object self p =
    (crud.mapper_get_id_from_path self
       >=> crud.storage_fetch_object self
       >=> crud.wrap_to_resource self) p
  /\ match crud.get_id_from_path (crud.mapper self) p with
     | Error e =>
         run (crud.traverse_to_object self p) =
           (Error e, [crud.Call_get_id_from_path p])
     | Ok id =>
         match crud.fetch_object self id with
         | Error e =>
             run (crud.traverse_to_object self p) =
               (Error e, [crud.Call_get_id_from_path p; crud.Call_fetch_object id])
         | Ok o =>
             forall log,
               crud.traverse_to_object self p log =
               crud.wrap_to_resource self o
                 (log ++ [crud.Call_get_id_from_path p; crud.Call_fetch_object id])
         end
     end.
Proof.
  split; [reflexivity |].
  unfold run, crud.traverse_to_object, bind, call.
  destruct (crud.get_id_from_path (crud.mapper self) p) as [id | e];
    [| reflexivity].
  destruct (crud.fetch_object self id) as [o | e]; [| reflexivity].
  intros log. by rewrite <- app_assoc.
Qed.

(** C5, as the claim states it, fails: a subclass with no [Resource]
    attribute is instantiated without error and serves lookups (a segment
    that is not an id is declined with [KeyError] as usual); the failure
    comes when an object is wrapped. *)
Lemma missing_Resource_survives_instantiation :
  crud.cls_Resource fixtures.unwrapped_class = None
  /\ exists self,
       crud.instantiate fixtures.unwrapped_class = Ok self
       /\ run (crud.__getitem__ self "listing")
          = (Error KeyError, [crud.Call_is_id "listing"])
       /\ run (crud.wrap_to_resource self fixtures.widget42)
          = (Error NotImplementedError, []).
Proof.
  split; [reflexivity |]. eexists. split; [reflexivity |].
  split; reflexivity.
Qed.

(** C5, amended. A CRUD subclass that supplies no [Resource] attribute is
    instantiated without error. It fails with [NotImplementedError] when an
    object is wrapped: in [make_resource], hence in [wrap_to_resource]
    before the mapper is called, and in [traverse_to_object] after the
    object has been fetched. *)
Theorem missing_Resource_fails_when_wrapping (cls : crud.CRUDClass) :
  crud.cls_Resource cls = None ->
  exists self,
    crud.instantiate cls = Ok self
    /\ (forall o log,
          crud.make_resource self o log = (Error NotImplementedError, log)
          /\ crud.wrap_to_resource self o log = (Error NotImplementedError, log))
    /\ (forall p id o,
          crud.get_id_from_path (crud.mapper self) p = Ok id ->
          crud.fetch_object self id = Ok o ->
          run (crud.traverse_to_object self p) =
            (Error NotImplementedError,
             [crud.Call_get_id_from_path p; crud.Call_fetch_object id])).
Proof.
  intros Hnone. eexists. split; [reflexivity |]. split.
  - intros o log. rewrite wrap_to_resource_run.
    unfold crud.make_resource. simpl. rewrite Hnone. by split.
  - intros p id o Hid Hfetch.
    unfold run, crud.traverse_to_object, bind, call. simpl in *.
    rewrite Hid, Hfetch, wrap_to_resource_run. simpl. by rewrite Hnone.
Qed.

Lemma missing_Resource_fails_when_wrapping_witness :
  crud.cls_Resource fixtures.unwrapped_class = None
  /\ exists self,
       crud.instantiate fixtures.unwrapped_class = Ok self
       /\ (forall o log,
             crud.make_resource self o log = (Error NotImplementedError, log)
             /\ crud.wrap_to_resource self o log
                = (Error NotImplementedError, log))
       /\ (forall p id o,
             crud.get_id_from_path (crud.mapper self) p = Ok id ->
             crud.fetch_object self id = Ok o ->
             run (crud.traverse_to_object self p) =
               (Error NotImplementedError,
                [crud.Call_get_id_from_path p; crud.Call_fetch_object id])).
Proof.
  split; [reflexivity |].
  apply (missing_Resource_fails_when_wrapping fixtures.unwrapped_class).
  reflexivity.
Defined.

(** C6, as the claim states it, fails: when the mapper hands back something
    that is not a string, here the integer [id], [wrap_to_resource] raises
    [AssertionError], not [MappingError]. *)
Lemma wrap_to_resource_asserts_on_non_string :
  crud.get_path_from_object (crud.mapper fixtures.raw_widgets) fixtures.widget42
    = Ok (VInt 42)
  /\ run (crud.wrap_to_resource fixtures.raw_widgets fixtures.widget42)
    = (Error AssertionError, [crud.Call_get_path_from_object fixtures.widget42])
  /\ fst (run (crud.wrap_to_resource fixtures.raw_widgets fixtures.widget42))
    <> Error MappingError.
Proof. repeat split; try reflexivity. vm_compute. discriminate. Qed.

(** C6, amended. On a collection with a [Resource] attribute,
    [wrap_to_resource(o)] builds a Resource wrapping [o], asks the mapper
    for [o]'s path once, and sets the lineage: the parent is the collection
    itself and the name is that path. If the mapper returns a value that is
    not a string, [wrap_to_resource] fails with [AssertionError]; if the
    mapper raises, that exception comes out unchanged. *)
Theorem wrap_to_resource_sets_lineage
    (self : crud.CRUD) (cls : crud.ResourceClass) (o : value) :
  crud.Resource_attr self = Some cls ->
  match crud.get_path_from_object (crud.mapper self) o with
  | Ok (VStr s) =>
      exists r,
        run (crud.wrap_to_resource self o)
          = (Ok r, [crud.Call_get_path_from_object o])
        /\ crud.resource_class r = cls
        /\ crud.get_object r = o
        /\ crud.__parent__ r = Some self
        /\ crud.__name__ r = Some s
  | Ok _ =>
      run (crud.wrap_to_resource self o)
        = (Error AssertionError, [crud.Call_get_path_from_object o])
  | Error e =>
      run (crud.wrap_to_resource self o)
        = (Error e, [crud.Call_get_path_from_object o])
  end.
Proof.
  intros Hcls. unfold run. rewrite wrap_to_resource_run, Hcls.
  destruct (crud.get_path_from_object (crud.mapper self) o) as [[] | e];
    try reflexivity.
  eexists. split; [reflexivity |]. by repeat split.
Qed.

Lemma wrap_to_resource_sets_lineage_witness :
  crud.Resource_attr fixtures.widgets = Some fixtures.WidgetResource
  /\ exists r,
       run (crud.wrap_to_resource fixtures.widgets fixtures.widget42)
         = (Ok r, [crud.Call_get_path_from_object fixtures.widget42])
       /\ crud.resource_class r = fixtures.WidgetResource
       /\ crud.get_object r = fixtures.widget42
       /\ crud.__parent__ r = Some fixtures.widgets
       /\ crud.__name__ r = Some "42".
Proof.
  split; [reflexivity |].
  apply (wrap_to_resource_sets_lineage
           fixtures.widgets fixtures.WidgetResource fixtures.widget42).
  reflexivity.
Defined.

(** C8. When [wrap_to_resource(o)] returns a resource, the mapper encoded
    [o] as a path string; the resource is named by it, [get_path()] on the
    resource answers what [mapper.get_path_from_object(o)] answers, and
    [get_title()] is that same path segment. *)
Theorem wrapped_resource_path
    (self : crud.CRUD) (o : value) (r : crud.Resource)
    (log log' : list crud.event) :
  crud.wrap_to_resource self o log = (Ok r, log') ->
  exists s,
    crud.get_path_from_object (crud.mapper self) o = Ok (VStr s)
    /\ crud.__name__ r = Some s
    /\ forall l,
         fst (crud.get_path r l)
           = crud.get_path_from_object (crud.mapper self) o
         /\ fst (crud.get_title r l) = Ok (VStr s).
Proof.
  rewrite wrap_to_resource_run.
  destruct (crud.Resource_attr self) as [cls |]; [| discriminate].
  destruct (crud.get_path_from_object (crud.mapper self) o) as [[] | e] eqn:Hpath;
    try discriminate.
  intros [= <- <-]. exists s. split; [reflexivity |]. split; [reflexivity |].
  intros l. unfold crud.get_title, crud.get_path, bind, call, ret. simpl.
  rewrite Hpath. by split.
Qed.

Lemma wrapped_resource_path_witness :
  let r := crud.make_lineage fixtures.widgets
             (crud.Resource_init fixtures.WidgetResource fixtures.widget42) "42" in
  crud.wrap_to_resource fixtures.widgets fixtures.widget42 []
    = (Ok r, [crud.Call_get_path_from_object fixtures.widget42])
  /\ exists s,
       crud.get_path_from_object (crud.mapper fixtures.widgets) fixtures.widget42
         = Ok (VStr s)
       /\ crud.__name__ r = Some s
       /\ forall l,
            fst (crud.get_path r l)
              = crud.get_path_from_object (crud.mapper fixtures.widgets)
                  fixtures.widget42
            /\ fst (crud.get_title r l) = Ok (VStr s).
Proof.
  split; [reflexivity |].
  apply (wrapped_resource_path fixtures.widgets fixtures.widget42
           (crud.make_lineage fixtures.widgets
              (crud.Resource_init fixtures.WidgetResource fixtures.widget42) "42")
           [] [crud.Call_get_path_from_object fixtures.widget42]).
  reflexivity.
Defined.

(** ** websauna.system.admin.admin *)

(** C7. [Admin.__getitem__(n)] raises [KeyError] exactly when [n] is not a
    key of [children], and returns a child exactly when that child is the
    one registered under [n]. Registering a child under [n] makes the
    lookup of [n] return that very child and changes no other name. *)
Theorem admin_getitem_lookup {Child : Type}
    (self : admin.Admin Child) (n : string) :
  (n ∉ dom (admin.children self) <-> admin.__getitem__ self n = Error KeyError)
  /\ (forall e, admin.__getitem__ self n = Error e -> e = KeyError)
  /\ (forall child,
        admin.children self !! n = Some child
        <-> admin.__getitem__ self n = Ok child)
  /\ (forall child m,
        let self' :=
          {| admin.__name__ := admin.__name__ self;
             admin.children := <[n := child]> (admin.children self) |} in
        admin.__getitem__ self' n = Ok child
        /\ (m <> n -> admin.__getitem__ self' m = admin.__getitem__ self m)).
Proof.
  unfold admin.__getitem__. repeat split.
  - intros Hdom. apply not_elem_of_dom in Hdom. by rewrite Hdom.
  - intros Hget. apply not_elem_of_dom.
    by destruct (admin.children self !! n).
  - intros e. destruct (admin.children self !! n); congruence.
  - by intros ->.
  - destruct (admin.children self !! n); congruence.
  - simpl. by rewrite lookup_insert_eq.
  - intros Hne. simpl. by rewrite lookup_insert_ne.
Qed.

(** [get_admin_object_url] by cases: on the truth value of the object, on
    the answer of [get_admin_resource], and on the truth value of the view
    name. *)
Lemma get_admin_object_url_run {Child : Type}
    (get_admin_resource : admin.Admin Child -> value -> result crud.Resource exn)
    (resource_url : crud.Resource -> list value -> result string exn)
    (self : admin.Admin Child) (o view_name : value) (log : list admin.event) :
  admin.get_admin_object_url get_admin_resource resource_url self o view_name log =
    if truthy o
    then
      match get_admin_resource self o with
      | Error e => (Error e, log ++ [admin.Call_get_admin_resource o])
      | Ok res =>
          let elements := if truthy view_name then [view_name] else [] in
          match resource_url res elements with
          | Ok url =>
              (Ok (VStr url),
               log ++ [admin.Call_get_admin_resource o;
                       admin.Call_resource_url res elements])
          | Error e =>
              (Error e,
               log ++ [admin.Call_get_admin_resource o;
                       admin.Call_resource_url res elements])
          end
      end
    else (Ok VNone, log).
Proof.
  unfold admin.get_admin_object_url, bind, call, ret.
  destruct (truthy o); simpl; [| reflexivity].
  destruct (get_admin_resource self o) as [res | e]; [| reflexivity].
  destruct (truthy view_name); simpl;
    destruct (resource_url res _); by rewrite <- app_assoc.
Qed.



(** C10. [get_admin_object_url] returns [None] for every object whose truth
    value is false, not only for [None]: no admin resource is looked up and
    no URL is built. *)
Theorem falsy_object_has_no_admin_url {Child : Type}
    (get_admin_resource : admin.Admin Child -> value -> result crud.Resource exn)
    (resource_url : crud.Resource -> list value -> result string exn)
    (self : admin.Admin Child) (o view_name : value) :
  truthy o = false ->
  forall log,
    admin.get_admin_object_url get_admin_resource resource_url
      self o view_name log = (Ok VNone, log).
Proof. intros Hfalse log. by rewrite get_admin_object_url_run, Hfalse. Qed.

Lemma falsy_object_has_no_admin_url_witness :
  (truthy (VInt 0) = false /\ VInt 0 <> VNone
   /\ forall log,
        admin.get_admin_object_url
          fixtures.any_admin_resource fixtures.admin_resource_url
          fixtures.the_admin (VInt 0) VNone log = (Ok VNone, log))
  /\ (truthy (VList []) = false /\ VList [] <> VNone
      /\ forall log,
           admin.get_admin_object_url
             fixtures.any_admin_resource fixtures.admin_resource_url
             fixtures.the_admin (VList []) (VStr "edit") log = (Ok VNone, log)).
Proof.
  split; (split; [reflexivity | split; [discriminate |]]).
  - apply (falsy_object_has_no_admin_url
             fixtures.any_admin_resource fixtures.admin_resource_url
             fixtures.the_admin (VInt 0) VNone).
    reflexivity.
  - apply (falsy_object_has_no_admin_url
             fixtures.any_admin_resource fixtures.admin_resource_url
             fixtures.the_admin (VList []) (VStr "edit")).
    reflexivity.
Defined.

(** ** websauna.system.crud.urlmapper *)

Section Base64.

Import urlmapper.
#[local] Open Scope Z_scope.

(** *** Regrouping bits: 8-bit bytes into 6-bit digits and back *)

Lemma group1_sextets (a : Z) :
  is_octet a -> is_sextet (a / 4) /\ is_sextet (a mod 4 * 16).
Proof.
  unfold is_octet, is_sextet. intros Ha. Z.div_mod_to_equations. lia.
Qed.

Lemma group1_back (a : Z) :
  is_octet a -> a / 4 * 4 + (a mod 4 * 16) / 16 = a.
Proof. unfold is_octet. intros Ha. Z.div_mod_to_equations. lia. Qed.

Lemma group2_sextets (a b : Z) :
  is_octet a -> is_octet b ->
  let n := a * 256 + b in
  is_sextet (n / 1024) /\ is_sextet ((n / 16) mod 64)
  /\ is_sextet (n mod 16 * 4).
Proof.
  unfold is_octet, is_sextet. intros Ha Hb; cbv zeta.
  Z.div_mod_to_equations. lia.
Qed.

Lemma group2_back (a b : Z) :
  is_octet a -> is_octet b ->
  let n := a * 256 + b in
  let m := n / 1024 * 1024 + (n / 16) mod 64 * 16 + (n mod 16 * 4) / 4 in
  m / 256 = a /\ m mod 256 = b.
Proof.
  intros Ha Hb n m. unfold is_octet in *.
  assert (m = n) as -> by (subst n m; Z.div_mod_to_equations; lia).
  subst n. Z.div_mod_to_equations. lia.
Qed.

Lemma group3_sextets (a b c : Z) :
  is_octet a -> is_octet b -> is_octet c ->
  let n := a * 65536 + b * 256 + c in
  is_sextet (n / 262144) /\ is_sextet ((n / 4096) mod 64)
  /\ is_sextet ((n / 64) mod 64) /\ is_sextet (n mod 64).
Proof.
  unfold is_octet, is_sextet. intros Ha Hb Hc; cbv zeta.
  Z.div_mod_to_equations. lia.
Qed.

Lemma group3_back (a b c : Z) :
  is_octet a -> is_octet b -> is_octet c ->
  let n := a * 65536 + b * 256 + c in
  let m := n / 262144 * 262144 + (n / 4096) mod 64 * 4096
           + (n / 64) mod 64 * 64 + n mod 64 in
  m / 65536 = a /\ (m / 256) mod 256 = b /\ m mod 256 = c.
Proof.
  intros Ha Hb Hc n m. unfold is_octet in *.
  assert (m = n) as -> by (subst n m; Z.div_mod_to_equations; lia).
  subst n. Z.div_mod_to_equations. lia.
Qed.

(** *** Bytes and characters *)

Lemma byte_val_octet (b : byte) : is_octet (byte_val b).
Proof.
  unfold is_octet, byte_val. pose proof (Byte.to_N_bounded b) as Hb. lia.
Qed.

Lemma byte_of_val (b : byte) (z : Z) : z = byte_val b -> byte_of z = Some b.
Proof.
  intros ->. unfold byte_of, byte_val. rewrite N2Z.id. apply Byte.of_to_N.
Qed.

Lemma val64_chr64 (s : Z) : is_sextet s -> val64 (chr64 s) = Some s.
Proof.
  intros [Hlo Hhi].
  assert (Hall :
    forallb (fun i : nat =>
               match val64 (chr64 (Z.of_nat i)) with
               | Some m => m =? Z.of_nat i
               | None => false
               end) (seq 0 64) = true) by (vm_compute; reflexivity).
  rewrite forallb_forall in Hall.
  specialize (Hall (Z.to_nat s)).
  rewrite Z2Nat.id in Hall by assumption.
  assert (Hin : In (Z.to_nat s) (seq 0 64)) by (apply in_seq; lia).
  specialize (Hall Hin).
  destruct (val64 (chr64 s)) as [m |]; [| discriminate Hall].
  f_equal. by apply Z.eqb_eq.
Qed.

(** Induction on a list of bytes three at a time, as the encoder reads
    it. *)
Lemma bytes_by_three_ind (P : list byte -> Prop) :
  P [] ->
  (forall a, P [a]) ->
  (forall a b, P [a; b]) ->
  (forall a b c rest, P rest -> P (a :: b :: c :: rest)) ->
  forall bs, P bs.
Proof.
  intros H0 H1 H2 H3.
  assert (Hboth : forall bs, P bs /\ (forall a, P (a :: bs))
                             /\ (forall a b, P (a :: b :: bs))).
  { induction bs as [| x bs (IH0 & IH1 & IH2)]; repeat split; auto. }
  intros bs. apply Hboth.
Qed.

Lemma sextets_of_bytes_range (bs : list byte) :
  Forall is_sextet (sextets_of_bytes bs).
Proof.
  induction bs as [| a | a b | a b c rest IH] using bytes_by_three_ind;
    cbn [sextets_of_bytes].
  - constructor.
  - destruct (group1_sextets _ (byte_val_octet a)) as (H0 & H1).
    do 2 (constructor; [assumption |]). constructor.
  - destruct (group2_sextets _ _ (byte_val_octet a) (byte_val_octet b))
      as (H0 & H1 & H2).
    do 3 (constructor; [assumption |]). constructor.
  - destruct (group3_sextets _ _ _ (byte_val_octet a) (byte_val_octet b)
                (byte_val_octet c)) as (H0 & H1 & H2 & H3).
    do 4 (constructor; [assumption |]). exact IH.
Qed.

Lemma sextets_of_chars_chr64 (ss : list Z) :
  Forall is_sextet ss -> sextets_of_chars (map chr64 ss) = Some ss.
Proof.
  induction 1 as [| s ss Hs _ IH]; [reflexivity |].
  cbn [map sextets_of_chars]. by rewrite (val64_chr64 s Hs), IH.
Qed.

Lemma bytes_of_sextets_of_bytes (bs : list byte) :
  bytes_of_sextets (sextets_of_bytes bs) = Some bs.
Proof.
  induction bs as [| a | a b | a b c rest IH] using bytes_by_three_ind;
    cbn [sextets_of_bytes bytes_of_sextets].
  - reflexivity.
  - by rewrite (byte_of_val a _ (group1_back _ (byte_val_octet a))).
  - destruct (group2_back _ _ (byte_val_octet a) (byte_val_octet b))
      as (Ha & Hb).
    by rewrite (byte_of_val a _ Ha), (byte_of_val b _ Hb).
  - destruct (group3_back _ _ _ (byte_val_octet a) (byte_val_octet b)
                (byte_val_octet c)) as (Ha & Hb & Hc).
    by rewrite (byte_of_val a _ Ha), (byte_of_val b _ Hb),
      (byte_of_val c _ Hc), IH.
Qed.

(** Decoding undoes encoding, for any bytes. *)
Lemma b64decode_b64encode (bs : list byte) :
  b64decode (b64encode bs) = Some bs.
Proof.
  unfold b64decode, b64encode.
  rewrite String.list_ascii_of_string_of_list_ascii.
  rewrite (sextets_of_chars_chr64 _ (sextets_of_bytes_range bs)).
  apply bytes_of_sextets_of_bytes.
Qed.

Lemma slug_to_uuid_uuid_to_slug (bytes : list byte) :
  length bytes = 16%nat -> slug_to_uuid (uuid_to_slug bytes) = Some bytes.
Proof.
  intros Hlen. unfold slug_to_uuid, uuid_to_slug.
  by rewrite b64decode_b64encode, Hlen.
Qed.

(** *** Decimal integers *)

Lemma int_of_str_str_of_int (z : Z) : int_of_str (str_of_int z) = Some z.
Proof.
  unfold int_of_str, str_of_int. rewrite NilEmpty.isi.
  pose proof (DecimalZ.of_to z) as Hback.
  destruct z as [| p | p]; simpl in *.
  - reflexivity.
  - pose proof (DecimalPos.Unsigned.to_uint_nonnil p) as Hnil.
    destruct (Pos.to_uint p); [contradiction | by rewrite Hback ..].
  - pose proof (DecimalPos.Unsigned.to_uint_nonnil p) as Hnil.
    destruct (Pos.to_uint p); [contradiction | by rewrite Hback ..].
Qed.

End Base64.

(** C2. Under either mapper, for every valid domain object [o] the mapper
    encodes [o] as a path string, and decoding that path gives back the
    identifier of [o]: [get_id_from_path(get_path_from_object(o)) = id(o)].
    The encoded path also passes the mapper's [is_id] check. *)
Theorem mapper_round_trip (s : urlmapper.strategy) (o : value) :
  urlmapper.valid_object s o = true ->
  exists path id,
    crud.get_path_from_object (urlmapper.mapper_of s) o = Ok (VStr path)
    /\ urlmapper.object_id s o = Some id
    /\ crud.get_id_from_path (urlmapper.mapper_of s) path = Ok id
    /\ crud.is_id (urlmapper.mapper_of s) path = Ok true.
Proof.
  unfold urlmapper.valid_object, urlmapper.object_id.
  destruct s; simpl.
  - destruct (getattr o "uuid") as [[| | | | bytes | |] |]; try discriminate.
    intros Hlen%Nat.eqb_eq.
    exists (urlmapper.uuid_to_slug bytes), (VUUID bytes).
    by rewrite slug_to_uuid_uuid_to_slug.
  - destruct (getattr o "id") as [[| | z | | | |] |]; try discriminate.
    intros _. exists (urlmapper.str_of_int z), (VInt z).
    by rewrite int_of_str_str_of_int.
Qed.

Lemma mapper_round_trip_witness :
  (urlmapper.valid_object urlmapper.OpaqueToken fixtures.widget42 = true
   /\ exists path id,
        crud.get_path_from_object urlmapper.Base64UUIDMapper fixtures.widget42
          = Ok (VStr path)
        /\ getattr fixtures.widget42 "uuid" = Some id
        /\ crud.get_id_from_path urlmapper.Base64UUIDMapper path = Ok id
        /\ crud.is_id urlmapper.Base64UUIDMapper path = Ok true)
  /\ (urlmapper.valid_object urlmapper.DecimalId fixtures.widget42 = true
      /\ exists path id,
           crud.get_path_from_object urlmapper.IdMapper fixtures.widget42
             = Ok (VStr path)
           /\ getattr fixtures.widget42 "id" = Some id
           /\ crud.get_id_from_path urlmapper.IdMapper path = Ok id
           /\ crud.is_id urlmapper.IdMapper path = Ok true).
Proof.
  split; (split; [reflexivity |]).
  - apply (mapper_round_trip urlmapper.OpaqueToken fixtures.widget42).
    reflexivity.
  - apply (mapper_round_trip urlmapper.DecimalId fixtures.widget42).
    reflexivity.
Defined.

(** The fixture row under both mappers, and strings that are no ids. *)
Example widget42_paths :
  crud.get_path_from_object urlmapper.Base64UUIDMapper fixtures.widget42
    = Ok (VStr "8PHy8_T19vf4-fr7_P3-_w")
  /\ crud.get_path_from_object urlmapper.IdMapper fixtures.widget42
    = Ok (VStr "42")
  /\ crud.is_id urlmapper.Base64UUIDMapper "listing" = Ok false
  /\ crud.is_id urlmapper.IdMapper "listing" = Ok false
  /\ crud.is_id urlmapper.IdMapper "add" = Ok false.
Proof. repeat split; reflexivity. Qed.

(** A lookup of the fixture row through [__getitem__], and a view name
    declined by the same collection. *)
Example widgets_getitem :
  run (crud.__getitem__ fixtures.widgets "42")
    = (Ok (crud.make_lineage fixtures.widgets
             (crud.Resource_init fixtures.WidgetResource fixtures.widget42) "42"),
       [crud.Call_is_id "42"; crud.Call_get_id_from_path "42";
        crud.Call_fetch_object (VInt 42);
        crud.Call_get_path_from_object fixtures.widget42])
  /\ run (crud.__getitem__ fixtures.widgets "listing")
    = (Error KeyError, [crud.Call_is_id "listing"]).
Proof. split; reflexivity. Qed.

(** ** Traversal and URL generation, end to end *)

(** [traverse_to_object] by cases on the answers of the mapper and of
    storage. *)
Lemma traverse_to_object_run (self : crud.CRUD) (p : string) (log : list crud.event) :
  crud.traverse_to_object self p log =
    match crud.get_id_from_path (crud.mapper self) p with
    | Error e => (Error e, log ++ [crud.Call_get_id_from_path p])
    | Ok id =>
        match crud.fetch_object self id with
        | Error e =>
            (Error e,
             log ++ [crud.Call_get_id_from_path p; crud.Call_fetch_object id])
        | Ok o =>
            crud.wrap_to_resource self o
              (log ++ [crud.Call_get_id_from_path p; crud.Call_fetch_object id])
        end
    end.
Proof.
  unfold crud.traverse_to_object, bind, call.
  destruct (crud.get_id_from_path (crud.mapper self) p) as [id | e];
    [| reflexivity].
  destruct (crud.fetch_object self id) as [o | e]; by rewrite <- app_assoc.
Qed.

(** [__getitem__] by cases on the answer of [is_id]. *)
Lemma getitem_run (self : crud.CRUD) (p : string) (log : list crud.event) :
  crud.__getitem__ self p log =
    match crud.is_id (crud.mapper self) p with
    | Ok true => crud.traverse_to_object self p (log ++ [crud.Call_is_id p])
    | Ok false => (Error KeyError, log ++ [crud.Call_is_id p])
    | Error e => (Error e, log ++ [crud.Call_is_id p])
    end.
Proof.
  unfold crud.__getitem__, bind, call, raise.
  by destruct (crud.is_id (crud.mapper self) p) as [[|] | e].
Qed.

(** Unfolds a whole lookup into the case table of its collaborators'
    answers. *)
Ltac lookup_cases self p :=
  unfold run;
  rewrite ?getitem_run, ?traverse_to_object_run;
  destruct (crud.is_id (crud.mapper self) p) as [[|] | ?] eqn:?;
  rewrite ?traverse_to_object_run;
  try destruct (crud.get_id_from_path (crud.mapper self) p) as [?id | ?] eqn:?;
  try match goal with
      | |- context [crud.fetch_object self ?i] =>
          destruct (crud.fetch_object self i) as [?o | ?] eqn:?
      end;
  rewrite ?wrap_to_resource_run;
  try destruct (crud.Resource_attr self) as [?cls |] eqn:?;
  try match goal with
      | |- context [crud.get_path_from_object (crud.mapper self) ?x] =>
          destruct (crud.get_path_from_object (crud.mapper self) x)
            as [[] | ?] eqn:?
      end;
  simpl.

(** What a lookup that returned a resource went through. *)
Lemma getitem_returns_inv
    (self : crud.CRUD) (p : string) (r : crud.Resource)
    (log : list crud.event) :
  run (crud.__getitem__ self p) = (Ok r, log) ->
  exists id o cls s,
    crud.is_id (crud.mapper self) p = Ok true
    /\ crud.get_id_from_path (crud.mapper self) p = Ok id
    /\ crud.fetch_object self id = Ok o
    /\ crud.Resource_attr self = Some cls
    /\ crud.get_path_from_object (crud.mapper self) o = Ok (VStr s)
    /\ r = crud.make_lineage self (crud.Resource_init cls o) s
    /\ log = crud.lookup_calls p id o.
Proof. lookup_cases self p; intros [= <- <-]; eauto 12. Qed.

(** X1. [__getitem__(p)] returns a resource exactly when every step
    answers: [is_id(p)] is true, [get_id_from_path(p)] gives an id,
    [fetch_object] gives an object for it, the collection has a [Resource]
    class and the mapper encodes the object as a string. The resource then
    wraps the fetched object under the collection, named by that string,
    and each collaborator was called once, in this order. *)
Theorem getitem_returns_iff
    (self : crud.CRUD) (p : string) (r : crud.Resource)
    (log : list crud.event) :
  run (crud.__getitem__ self p) = (Ok r, log)
  <-> exists id o cls s,
        crud.is_id (crud.mapper self) p = Ok true
        /\ crud.get_id_from_path (crud.mapper self) p = Ok id
        /\ crud.fetch_object self id = Ok o
        /\ crud.Resource_attr self = Some cls
        /\ crud.get_path_from_object (crud.mapper self) o = Ok (VStr s)
        /\ r = crud.make_lineage self (crud.Resource_init cls o) s
        /\ log = crud.lookup_calls p id o.
Proof.
  split; [apply getitem_returns_inv |].
  intros (id & o & cls & s & Hisid & Hid & Hfetch & Hcls & Hpath & -> & ->).
  unfold run.
  rewrite getitem_run, Hisid, traverse_to_object_run, Hid, Hfetch,
    wrap_to_resource_run, Hcls, Hpath.
  reflexivity.
Qed.


(** X3. [__getitem__(p)] calls [fetch_object] at most once, and only with
    the id that [get_id_from_path(p)] returned after [is_id(p)] answered
    true. *)
Theorem getitem_storage_gate (self : crud.CRUD) (p : string) :
  length (List.filter crud.touches_storage (snd (run (crud.__getitem__ self p))))
    <= 1
  /\ forall id,
       In (crud.Call_fetch_object id) (snd (run (crud.__getitem__ self p))) ->
       crud.is_id (crud.mapper self) p = Ok true
       /\ crud.get_id_from_path (crud.mapper self) p = Ok id.
Proof.
  lookup_cases self p;
    (split; [lia |]);
    intros i Hin; simpl in Hin;
    repeat match type of Hin with
           | _ \/ _ => destruct Hin as [Hin | Hin]
           end;
    try contradiction; try discriminate Hin;
    injection Hin as <-; by split.
Qed.

(** [get_object_url] by cases on the outcome of [wrap_to_resource]. *)
Lemma get_object_url_run
    (resource_url : crud.Resource -> list value -> result string exn)
    (self : crud.CRUD) (o view_name : value) (log : list crud.event) :
  crud.get_object_url resource_url self o view_name log =
    match crud.wrap_to_resource self o log with
    | (Ok res, log') =>
        (resource_url res (crud.url_elements view_name),
         log' ++ [crud.Call_resource_url res (crud.url_elements view_name)])
    | (Error e, log') => (Error e, log')
    end.
Proof.
  unfold crud.get_object_url, crud.url_elements, bind, call.
  destruct (crud.wrap_to_resource self o log) as [[res | e] log'];
    [| reflexivity].
  by destruct (truthy view_name).
Qed.

(** X4. Building a URL never reads storage: no call of [get_object_url],
    [wrap_to_resource], [get_path] or [get_title] reaches [fetch_object],
    whatever the mapper and the URL host answer. *)
Theorem url_generation_never_touches_storage
    (resource_url : crud.Resource -> list value -> result string exn)
    (self : crud.CRUD) (o view_name : value) (r : crud.Resource) :
  existsb crud.touches_storage
    (snd (run (crud.get_object_url resource_url self o view_name))) = false
  /\ existsb crud.touches_storage (snd (run (crud.wrap_to_resource self o)))
     = false
  /\ existsb crud.touches_storage (snd (run (crud.get_path r))) = false
  /\ existsb crud.touches_storage (snd (run (crud.get_title r))) = false.
Proof.
  assert (Hwrap : existsb crud.touches_storage
                    (snd (run (crud.wrap_to_resource self o))) = false).
  { unfold run. rewrite wrap_to_resource_run.
    destruct (crud.Resource_attr self); [| reflexivity].
    by destruct (crud.get_path_from_object (crud.mapper self) o) as [[] | e]. }
  assert (Hpath : existsb crud.touches_storage (snd (run (crud.get_path r)))
                  = false).
  { unfold run, crud.get_path, bind, call, ret, raise.
    destruct (crud.__parent__ r); [| reflexivity].
    by destruct (crud.get_path_from_object _ _). }
  repeat split; try assumption.
  unfold run in *. rewrite get_object_url_run.
  destruct (crud.wrap_to_resource self o []) as [[res | e] log'];
    [| assumption].
  simpl in *. rewrite existsb_app, Hwrap. reflexivity.
Qed.

(** X5. [get_object_url] asks the URL host only for a resource that
    [wrap_to_resource] returned. When wrapping raises, [get_object_url]
    raises the same exception, and the URL host is not called; when
    wrapping returns a resource, the URL host is called once, after the
    mapper, for that resource (whose parent is the collection and whose
    object is the one given), with the view name as only element when it
    is true, and its answer, a URL or an exception, is the outcome. *)
Theorem get_object_url_after_wrap
    (resource_url : crud.Resource -> list value -> result string exn)
    (self : crud.CRUD) (o view_name : value) :
  match run (crud.wrap_to_resource self o) with
  | (Error e, log) =>
      run (crud.get_object_url resource_url self o view_name) = (Error e, log)
      /\ forall res elements, ~ In (crud.Call_resource_url res elements) log
  | (Ok res, log) =>
      run (crud.get_object_url resource_url self o view_name)
        = (resource_url res (if truthy view_name then [view_name] else []),
           log ++ [crud.Call_resource_url res
                     (if truthy view_name then [view_name] else [])])
      /\ (forall res' elements',
            ~ In (crud.Call_resource_url res' elements') log)
      /\ crud.__parent__ res = Some self
      /\ crud.get_object res = o
  end.
Proof.
  unfold run. rewrite get_object_url_run, wrap_to_resource_run.
  unfold crud.url_elements.
  destruct (crud.Resource_attr self) as [cls |].
  - destruct (crud.get_path_from_object (crud.mapper self) o) as [[] | e];
      simpl;
      try (split; [reflexivity | intros res elements [Hin | []]; discriminate Hin]).
    split; [reflexivity |].
    split; [intros res' elements' [Hin | []]; discriminate Hin | by split].
  - split; [reflexivity | intros res elements []].
Qed.

(** X6. A view name that is false ([None], the empty string, zero, an empty
    list) is no view name: [get_object_url] then does exactly what it does
    with [None], handing no element to the URL host. *)
Theorem get_object_url_false_view_name
    (resource_url : crud.Resource -> list value -> result string exn)
    (self : crud.CRUD) (o view_name : value) :
  truthy view_name = false ->
  crud.url_elements view_name = []
  /\ forall log,
       crud.get_object_url resource_url self o view_name log
         = crud.get_object_url resource_url self o VNone log.
Proof.
  intros Hfalse.
  split; [unfold crud.url_elements; by rewrite Hfalse |].
  intros log. rewrite !get_object_url_run. unfold crud.url_elements.
  by rewrite Hfalse.
Qed.

Lemma get_object_url_false_view_name_witness :
  truthy (VStr "") = false
  /\ crud.url_elements (VStr "") = []
  /\ forall log,
       crud.get_object_url fixtures.admin_resource_url fixtures.widgets
         fixtures.widget42 (VStr "") log
         = crud.get_object_url fixtures.admin_resource_url fixtures.widgets
             fixtures.widget42 VNone log.
Proof.
  split; [reflexivity |].
  apply (get_object_url_false_view_name fixtures.admin_resource_url
           fixtures.widgets fixtures.widget42 (VStr "")).
  reflexivity.
Defined.

(** X7. Traversal and URL generation agree on the resource: when
    [__getitem__(p)] returns a resource, [get_object_url] for the object of
    that resource asks the mapper once and then hands that very resource,
    same parent and same name, to the URL host. *)
Theorem url_of_traversed_resource
    (resource_url : crud.Resource -> list value -> result string exn)
    (self : crud.CRUD) (p : string) (r : crud.Resource)
    (log : list crud.event) (view_name : value) :
  run (crud.__getitem__ self p) = (Ok r, log) ->
  run (crud.get_object_url resource_url self (crud.get_object r) view_name)
    = (resource_url r (crud.url_elements view_name),
       [crud.Call_get_path_from_object (crud.get_object r);
        crud.Call_resource_url r (crud.url_elements view_name)]).
Proof.
  intros (id & o & cls & s & _ & _ & _ & Hcls & Hpath & -> & _)%getitem_returns_inv.
  unfold run. rewrite get_object_url_run, wrap_to_resource_run. simpl.
  by rewrite Hcls, Hpath.
Qed.

Lemma url_of_traversed_resource_witness :
  let r := crud.make_lineage fixtures.widgets
             (crud.Resource_init fixtures.WidgetResource fixtures.widget42) "42" in
  run (crud.__getitem__ fixtures.widgets "42")
    = (Ok r, crud.lookup_calls "42" (VInt 42) fixtures.widget42)
  /\ run (crud.get_object_url fixtures.admin_resource_url fixtures.widgets
            (crud.get_object r) (VStr "edit"))
     = (fixtures.admin_resource_url r (crud.url_elements (VStr "edit")),
        [crud.Call_get_path_from_object (crud.get_object r);
         crud.Call_resource_url r (crud.url_elements (VStr "edit"))]).
Proof.
  split; [reflexivity |].
  apply (url_of_traversed_resource fixtures.admin_resource_url fixtures.widgets
           "42"
           (crud.make_lineage fixtures.widgets
              (crud.Resource_init fixtures.WidgetResource fixtures.widget42) "42")
           (crud.lookup_calls "42" (VInt 42) fixtures.widget42) (VStr "edit")).
  reflexivity.
Defined.

(** X8. A resource that [__getitem__(p)] returned is ready for use: its
    parent is the collection, its object is the one storage returned for
    the id of [p], [get_path()] and [get_title()] return its name after one
    mapper call and cannot fail, and [get_model()] is the collection's
    [get_model()]. The name is the mapper's encoding of the fetched
    object. *)
Theorem traversed_resource_is_usable
    (get_model_of : crud.CRUD -> result value exn)
    (self : crud.CRUD) (p : string) (r : crud.Resource)
    (log : list crud.event) :
  run (crud.__getitem__ self p) = (Ok r, log) ->
  exists id s,
    crud.get_id_from_path (crud.mapper self) p = Ok id
    /\ crud.fetch_object self id = Ok (crud.get_object r)
    /\ crud.get_path_from_object (crud.mapper self) (crud.get_object r)
       = Ok (VStr s)
    /\ crud.__parent__ r = Some self
    /\ crud.__name__ r = Some s
    /\ crud.get_model get_model_of r = get_model_of self
    /\ forall l,
         crud.get_path r l
           = (Ok (VStr s),
              l ++ [crud.Call_get_path_from_object (crud.get_object r)])
         /\ crud.get_title r l = crud.get_path r l.
Proof.
  intros (id & o & cls & s & _ & Hid & Hfetch & _ & Hpath & -> & _)%getitem_returns_inv.
  exists id, s. repeat split; try assumption.
  unfold crud.get_path, bind, call, ret. simpl. by rewrite Hpath.
Qed.

Lemma traversed_resource_is_usable_witness :
  let r := crud.make_lineage fixtures.widgets
             (crud.Resource_init fixtures.WidgetResource fixtures.widget42) "42" in
  run (crud.__getitem__ fixtures.widgets "42")
    = (Ok r, crud.lookup_calls "42" (VInt 42) fixtures.widget42)
  /\ exists id s,
       crud.get_id_from_path (crud.mapper fixtures.widgets) "42" = Ok id
       /\ crud.fetch_object fixtures.widgets id = Ok (crud.get_object r)
       /\ crud.get_path_from_object (crud.mapper fixtures.widgets)
            (crud.get_object r) = Ok (VStr s)
       /\ crud.__parent__ r = Some fixtures.widgets
       /\ crud.__name__ r = Some s
       /\ crud.get_model fixtures.widget_model r
          = fixtures.widget_model fixtures.widgets
       /\ forall l,
            crud.get_path r l
              = (Ok (VStr s),
                 l ++ [crud.Call_get_path_from_object (crud.get_object r)])
            /\ crud.get_title r l = crud.get_path r l.
Proof.
  split; [reflexivity |].
  apply (traversed_resource_is_usable fixtures.widget_model fixtures.widgets
           "42"
           (crud.make_lineage fixtures.widgets
              (crud.Resource_init fixtures.WidgetResource fixtures.widget42) "42")
           (crud.lookup_calls "42" (VInt 42) fixtures.widget42)).
  reflexivity.
Defined.

(** X9. [make_resource] alone calls no collaborator and sets no lineage:
    the resource it returns wraps the object in the collection's [Resource]
    class, has neither parent nor name, and is not yet usable, since
    [get_path()] and [get_title()] raise [AssertionError] on it and
    [get_model()] raises [AttributeError]. *)
Theorem make_resource_sets_no_lineage
    (get_model_of : crud.CRUD -> result value exn)
    (self : crud.CRUD) (o : value) (r : crud.Resource)
    (log log' : list crud.event) :
  crud.make_resource self o log = (Ok r, log') ->
  log' = log
  /\ crud.Resource_attr self = Some (crud.resource_class r)
  /\ crud.get_object r = o
  /\ crud.__parent__ r = None
  /\ crud.__name__ r = None
  /\ crud.get_model get_model_of r = Error AttributeError
  /\ forall l,
       crud.get_path r l = (Error AssertionError, l)
       /\ crud.get_title r l = (Error AssertionError, l).
Proof.
  unfold crud.make_resource, ret, raise.
  destruct (crud.Resource_attr self) as [cls |]; [| discriminate].
  intros [= <- <-]. by repeat split.
Qed.

Lemma make_resource_sets_no_lineage_witness :
  let r := crud.Resource_init fixtures.WidgetResource fixtures.widget42 in
  crud.make_resource fixtures.widgets fixtures.widget42 [] = (Ok r, [])
  /\ [] = ([] : list crud.event)
  /\ crud.Resource_attr fixtures.widgets = Some (crud.resource_class r)
  /\ crud.get_object r = fixtures.widget42
  /\ crud.__parent__ r = None
  /\ crud.__name__ r = None
  /\ crud.get_model fixtures.widget_model r = Error AttributeError
  /\ forall l,
       crud.get_path r l = (Error AssertionError, l)
       /\ crud.get_title r l = (Error AssertionError, l).
Proof.
  split; [reflexivity |].
  apply (make_resource_sets_no_lineage fixtures.widget_model fixtures.widgets
           fixtures.widget42
           (crud.Resource_init fixtures.WidgetResource fixtures.widget42) [] []).
  reflexivity.
Defined.

(** X10. The admin root and the collection build the same URL: for an
    object that is true, when [get_admin_resource] resolves the object to
    what the collection's [wrap_to_resource] gives for it, a resource or
    an exception, [Admin.get_admin_object_url] has the outcome of
    [CRUD.get_object_url] for the same view name. *)
Theorem admin_url_is_crud_url {Child : Type}
    (get_admin_resource : admin.Admin Child -> value -> result crud.Resource exn)
    (resource_url : crud.Resource -> list value -> result string exn)
    (root : admin.Admin Child) (self : crud.CRUD) (o view_name : value) :
  truthy o = true ->
  get_admin_resource root o = fst (run (crud.wrap_to_resource self o)) ->
  fst (run (admin.get_admin_object_url get_admin_resource resource_url
              root o view_name))
  = match fst (run (crud.get_object_url resource_url self o view_name)) with
    | Ok url => Ok (VStr url)
    | Error e => Error e
    end.
Proof.
  intros Htrue Hres. unfold run in *.
  rewrite get_admin_object_url_run, get_object_url_run, Htrue, Hres.
  unfold crud.url_elements.
  destruct (crud.wrap_to_resource self o []) as [[res | e] log];
    [| reflexivity].
  simpl. by destruct (resource_url res _).
Qed.

Lemma admin_url_is_crud_url_witness :
  truthy fixtures.widget42 = true
  /\ fixtures.widgets_admin_resource fixtures.the_admin fixtures.widget42
     = fst (run (crud.wrap_to_resource fixtures.widgets fixtures.widget42))
  /\ fst (run (admin.get_admin_object_url fixtures.widgets_admin_resource
                 fixtures.admin_resource_url fixtures.the_admin
                 fixtures.widget42 (VStr "show")))
     = match fst (run (crud.get_object_url fixtures.admin_resource_url
                         fixtures.widgets fixtures.widget42 (VStr "show"))) with
       | Ok url => Ok (VStr url)
       | Error e => Error e
       end.
Proof.
  split; [reflexivity |]. split; [reflexivity |].
  apply (admin_url_is_crud_url fixtures.widgets_admin_resource
           fixtures.admin_resource_url fixtures.the_admin fixtures.widgets
           fixtures.widget42 (VStr "show")); reflexivity.
Defined.

(** The URL of the fixture row, through the collection and through the
    admin root. *)
Example widget42_urls :
  fst (run (crud.get_object_url fixtures.admin_resource_url fixtures.widgets
              fixtures.widget42 (VStr "show")))
    = Ok "/admin/widgets/42/show"
  /\ fst (run (crud.get_object_url fixtures.admin_resource_url fixtures.widgets
                 fixtures.widget42 VNone))
    = Ok "/admin/widgets/42"
  /\ fst (run (admin.get_admin_object_url fixtures.widgets_admin_resource
                 fixtures.admin_resource_url fixtures.the_admin
                 fixtures.widget42 (VStr "show")))
    = Ok (VStr "/admin/widgets/42/show").
Proof. repeat split; reflexivity. Qed.


